(** * Zomato menu and order API (Flask + SQLAlchemy): handlers of [app.py]

    The view functions of [app.py] are embedded as computations in a small
    state-and-exception monad over the SQLAlchemy session and the committed
    tables.

    Modelling boundary.
    - A request body is the Python dict that [request.get_json()] returns
      for a JSON object; a dict is kept as an association list in insertion
      order.
    - The MySQL server is outside the repository.  A table is a finite map
      from primary key to the column values the handler bound to the row.
      What the driver writes for a bound value is [written]; a value of the
      Python type its column loads ([holds]) is read back as it was bound,
      and the statements that compare a request with a later answer are
      about such values.
    - The environment [env] carries what the server does with a request:
      whether it accepts the commit, and whether [MenuItem.query.all()],
      the one query a handler guards on its own, succeeds; each may raise
      an exception instead.  The outcome of a commit is not derived from
      the pending rows: a statement about an accepted commit has that as a
      hypothesis.  The lookups by primary key and the order filters are
      reads of the tables.
    - Flask-SQLAlchemy gives every request a fresh session and removes it
      when the request ends; [serve] is that request cycle. *)

From Stdlib Require Import QArith.
From stdpp Require Import gmap strings list fin_maps pretty.

Local Open Scope Z_scope.
Local Open Scope string_scope.

(** ** Python values *)

#[local] Set Warnings "-register-all".

(** The values that flow through the handlers: what [json.loads] produces
    (None, bool, int, float, str, list, dict) and the tuples the handlers
    build.  [PFloat] carries the rational a finite float denotes; a [str] is
    the sequence of its characters, one [ascii] each. *)
Inductive value : Type :=
  | PNone
  | PBool (b : bool)
  | PInt (n : Z)
  | PFloat (q : Q)
  | PStr (s : string)
  | PList (xs : list value)
  | PTuple (xs : list value)
  | PDict (kvs : list (string * value)).

Abbreviation dict := (list (string * value)).

(** [bool(v)]: the truth value Python gives [v] in [if not v]. *)
Definition truthy (v : value) : bool :=
  match v with
  | PNone => false
  | PBool b => b
  | PInt n => negb (Z.eqb n 0)
  | PFloat q => negb (Qeq_bool q 0)
  | PStr s => negb (String.eqb s "")
  | PList xs => negb (Nat.eqb (length xs) 0)
  | PTuple xs => negb (Nat.eqb (length xs) 0)
  | PDict kvs => negb (Nat.eqb (length kvs) 0)
  end.

(** [type(v).__name__] *)
Definition type_name (v : value) : string :=
  match v with
  | PNone => "NoneType"
  | PBool _ => "bool"
  | PInt _ => "int"
  | PFloat _ => "float"
  | PStr _ => "str"
  | PList _ => "list"
  | PTuple _ => "tuple"
  | PDict _ => "dict"
  end.

(** ** Exceptions *)

Inductive exn : Type :=
  | KeyError (key : string)
  | TypeError (msg : string)
  | DatabaseError (msg : string).

(** [str(e)].  A [KeyError] prints the repr of its key; the keys the handlers
    index with are the identifier literals of the source. *)
Definition str (e : exn) : string :=
  match e with
  | KeyError key => "'" ++ key ++ "'"
  | TypeError msg => msg
  | DatabaseError msg => msg
  end.

Inductive result (A : Type) : Type :=
  | Ok (a : A)
  | Raise (e : exn).
Arguments Ok {A} a.
Arguments Raise {A} e.

(** ** Dict access *)

Fixpoint dict_lookup (d : dict) (k : string) : option value :=
  match d with
  | [] => None
  | (k', v) :: rest => if String.eqb k k' then Some v else dict_lookup rest k
  end.

(** [d[k]] *)
Definition getitem (d : dict) (k : string) : result value :=
  match dict_lookup d k with
  | Some v => Ok v
  | None => Raise (KeyError k)
  end.

(** [d.get(k)] *)
Definition dict_get (d : dict) (k : string) : value :=
  match dict_lookup d k with
  | Some v => v
  | None => PNone
  end.

Definition keys (d : dict) : list string := fst <$> d.

(** ** [str.join] *)

Fixpoint join (sep : string) (xs : list string) : string :=
  match xs with
  | [] => ""
  | x :: rest =>
      match rest with
      | [] => x
      | _ :: _ => x ++ sep ++ join sep rest
      end
  end.

(** The items of the iterable must all be [str]; the first that is not
    raises [TypeError] with its position. *)
Fixpoint str_items (i : nat) (xs : list value) : result (list string) :=
  match xs with
  | [] => Ok []
  | PStr s :: rest =>
      match str_items (S i) rest with
      | Ok ss => Ok (s :: ss)
      | Raise e => Raise e
      end
  | v :: _ =>
      Raise (TypeError ("sequence item " ++ pretty i ++ ": expected str instance, "
                          ++ type_name v ++ " found"))
  end.

Fixpoint chars (s : string) : list string :=
  match s with
  | EmptyString => []
  | String c rest => String c EmptyString :: chars rest
  end.

(** [sep.join(v)]: lists and tuples are joined item by item, a str character
    by character, a dict by its keys; anything else is not iterable. *)
Definition py_join (sep : string) (v : value) : result string :=
  match v with
  | PList xs | PTuple xs =>
      match str_items 0 xs with
      | Ok ss => Ok (join sep ss)
      | Raise e => Raise e
      end
  | PStr s => Ok (join sep (chars s))
  | PDict kvs => Ok (join sep (keys kvs))
  | _ => Raise (TypeError "can only join an iterable")
  end.

(** ** Data model *)

(** [class MenuItem(db.Model)]; the primary key [id] is the key of the
    table. *)
Module MenuItem.
Record t : Type := mk {
  name : value;
  description : value;
  price : value;
  availability : value;
  sold_count : value
}.
End MenuItem.

(** [class FoodOrder(db.Model)] *)
Module FoodOrder.
Record t : Type := mk {
  customer_name : value;
  dish_ids : value;
  total_price : value;
  order_status : value
}.

Definition set_order_status (v : value) (o : t) : t :=
  mk (customer_name o) (dish_ids o) (total_price o) v.
End FoodOrder.

(** The committed tables, each with its auto-increment counter. *)
Record database : Type := mkDatabase {
  menu_item : gmap Z MenuItem.t;
  food_order : gmap Z FoodOrder.t;
  menu_item_next : Z;
  food_order_next : Z
}.

(** What the session has recorded and not yet flushed. *)
Inductive change : Type :=
  | NewMenuItem (item : MenuItem.t)
  | DirtyMenuItem (id : Z) (item : MenuItem.t)
  | DeletedMenuItem (id : Z)
  | NewFoodOrder (order : FoodOrder.t)
  | DirtyFoodOrder (id : Z) (order : FoodOrder.t).

Record world : Type := mkWorld {
  db : database;
  session : list change
}.

Definition apply_change (d : database) (c : change) : database :=
  match c with
  | NewMenuItem item =>
      mkDatabase (<[menu_item_next d := item]> (menu_item d)) (food_order d)
                 (menu_item_next d + 1) (food_order_next d)
  | DirtyMenuItem id item =>
      mkDatabase (<[id := item]> (menu_item d)) (food_order d)
                 (menu_item_next d) (food_order_next d)
  | DeletedMenuItem id =>
      mkDatabase (delete id (menu_item d)) (food_order d)
                 (menu_item_next d) (food_order_next d)
  | NewFoodOrder order =>
      mkDatabase (menu_item d) (<[food_order_next d := order]> (food_order d))
                 (menu_item_next d) (food_order_next d + 1)
  | DirtyFoodOrder id order =>
      mkDatabase (menu_item d) (<[id := order]> (food_order d))
                 (menu_item_next d) (food_order_next d)
  end.

Definition flush (d : database) (cs : list change) : database :=
  foldl apply_change d cs.

(** What the server does with this request: the exception the commit
    raises, if any, and the exception [MenuItem.query.all()] raises, if
    any. *)
Record env : Type := mkEnv {
  commit_fault : option exn;
  query_fault : option exn
}.

(** ** The handler monad *)

Definition M (A : Type) : Type := world → result A * world.

Definition ret {A} (a : A) : M A := λ w, (Ok a, w).

Definition raise {A} (e : exn) : M A := λ w, (Raise e, w).

Definition bind {A B} (m : M A) (k : A → M B) : M B :=
  λ w, match m w with
       | (Ok a, w') => k a w'
       | (Raise e, w') => (Raise e, w')
       end.

Definition lift {A} (r : result A) : M A :=
  match r with
  | Ok a => ret a
  | Raise e => raise e
  end.

(** [try: body / except Exception as e: handler e] *)
Definition try_except {A} (body : M A) (handler : exn → M A) : M A :=
  λ w, match body w with
       | (Ok a, w') => (Ok a, w')
       | (Raise e, w') => handler e w'
       end.

Notation "x <- m ;; k" := (bind m (λ x, k))
  (at level 100, m at next level, right associativity).
Notation "m ;;; k" := (bind m (λ _, k))
  (at level 100, right associativity).

(** ** Session operations *)

Definition record (c : change) : M unit :=
  λ w, (Ok (), mkWorld (db w) (session w ++ [c])%list).

(** [db.session.commit()] *)
Definition commit (E : env) : M unit :=
  λ w, match commit_fault E with
       | Some e => (Raise e, w)
       | None => (Ok (), mkWorld (flush (db w) (session w)) [])
       end.

(** [db.session.rollback()] *)
Definition rollback : M unit :=
  λ w, (Ok (), mkWorld (db w) []).

(** [MenuItem.query.all()], [MenuItem.query.get(id)] and the like: a loaded
    object is the pair of its primary key and its columns. *)
Definition menu_item_all (E : env) : M (list (Z * MenuItem.t)) :=
  λ w, match query_fault E with
       | Some e => (Raise e, w)
       | None => (Ok (map_to_list (menu_item (db w))), w)
       end.

Definition menu_item_get (id : Z) : M (option MenuItem.t) :=
  λ w, (Ok (menu_item (db w) !! id), w).

Definition food_order_all : M (list (Z * FoodOrder.t)) :=
  λ w, (Ok (map_to_list (food_order (db w))), w).

Definition food_order_get (id : Z) : M (option FoodOrder.t) :=
  λ w, (Ok (food_order (db w) !! id), w).

(** Column = string literal, as [filter_by] compares it. *)
Definition is_str (s : string) (v : value) : bool :=
  match v with
  | PStr s' => String.eqb s s'
  | _ => false
  end.

Definition food_order_filter_by (col : FoodOrder.t → value) (s : string)
  : M (list (Z * FoodOrder.t)) :=
  λ w, (Ok (List.filter (λ o, is_str s (col o.2)) (map_to_list (food_order (db w)))), w).

(** ** Responses *)

Abbreviation response := (value * Z)%type.

Definition jsonify (d : dict) : value := PDict d.

(** One request: a fresh session, the view function, the session removed. *)
Definition serve (h : M response) (d : database) : result response * database :=
  let (r, w) := h (mkWorld d []) in (r, db w).

(** Flask answers an exception that leaves the view function with
    500 Internal Server Error. *)
Definition http_status (r : result response) : Z :=
  match r with
  | Ok (_, status) => status
  | Raise _ => 500
  end.

(** ** View functions *)

Definition error_body (msg : string) : value := jsonify [("error", PStr msg)].
Definition message_body (msg : string) : value := jsonify [("message", PStr msg)].

(** *** Menu items *)

(** The [try] block of [add_menu_item]. *)
Definition add_menu_item_body (E : env) (data : dict) : M response :=
  name <- lift (getitem data "name");;
  description <- lift (getitem data "description");;
  price <- lift (getitem data "price");;
  availability <- lift (getitem data "availability");;
  sold_count <- lift (getitem data "sold_count");;
  let new_item := MenuItem.mk name description price availability sold_count in
  record (NewMenuItem new_item);;;
  commit E;;;
  ret (message_body "Menu item added successfully", 201).

(** [POST /menu/add] *)
Definition add_menu_item (E : env) (data : dict) : M response :=
  try_except (add_menu_item_body E data)
             (λ e, ret (error_body (str e), 400)).

Definition menu_item_dict (item : Z * MenuItem.t) : value :=
  PDict [("id", PInt item.1);
         ("name", MenuItem.name item.2);
         ("description", MenuItem.description item.2);
         ("price", MenuItem.price item.2);
         ("availability", MenuItem.availability item.2);
         ("sold_count", MenuItem.sold_count item.2)].

(** The [try] block of [get_menu_items]; the loop appends one dict per
    row. *)
Definition get_menu_items_body (E : env) : M response :=
  menu_items <- menu_item_all E;;
  let menu_items_list :=
    foldl (λ acc item, (acc ++ [menu_item_dict item])%list) [] menu_items in
  ret (PList menu_items_list, 200).

(** [GET /menu] *)
Definition get_menu_items (E : env) : M response :=
  try_except (get_menu_items_body E)
             (λ e, ret (error_body (str e), 500)).

(** The [try] block of [update_menu_item]. *)
Definition update_menu_item_body (E : env) (item_id : Z) (data : dict) : M response :=
  name <- lift (getitem data "name");;
  description <- lift (getitem data "description");;
  price <- lift (getitem data "price");;
  availability <- lift (getitem data "availability");;
  sold_count <- lift (getitem data "sold_count");;
  menu_item <- menu_item_get item_id;;
  match menu_item with
  | None => ret (error_body "Menu item not found", 404)
  | Some _ =>
      record (DirtyMenuItem item_id
                (MenuItem.mk name description price availability sold_count));;;
      commit E;;;
      ret (message_body "Menu item updated successfully", 200)
  end.

(** [PUT /menu/update/<int:item_id>] *)
Definition update_menu_item (E : env) (item_id : Z) (data : dict) : M response :=
  try_except (update_menu_item_body E item_id data)
             (λ e, ret (error_body (str e), 400)).

(** The [try] block of [delete_menu_item]. *)
Definition delete_menu_item_body (E : env) (item_id : Z) : M response :=
  menu_item <- menu_item_get item_id;;
  match menu_item with
  | None => ret (error_body "Menu item not found", 404)
  | Some _ =>
      record (DeletedMenuItem item_id);;;
      commit E;;;
      ret (message_body "Menu item deleted successfully", 200)
  end.

(** [DELETE /menu/delete/<int:item_id>] *)
Definition delete_menu_item (E : env) (item_id : Z) : M response :=
  try_except (delete_menu_item_body E item_id)
             (λ e, ret (error_body (str e), 400)).

(** *** Orders *)

(** The [try] block of [create_order]. *)
Definition create_order_body (E : env) (new_order : FoodOrder.t) : M response :=
  record (NewFoodOrder new_order);;;
  commit E;;;
  ret (message_body "Order created successfully", 201).

(** The [try]/[except] that ends [create_order]. *)
Definition create_order_try (E : env) (new_order : FoodOrder.t) : M response :=
  try_except (create_order_body E new_order)
             (λ e, rollback;;; ret (error_body (str e), 500)).

(** [POST /orders].  The two assignments that end in a comma bind
    one-element tuples. *)
Definition create_order (E : env) (data : dict) : M response :=
  ids <- lift (getitem data "dish_ids");;
  dish_ids_str <- lift (py_join "," ids);;
  customer_name <- lift (getitem data "customer_name");;
  let dish_ids := PTuple [PStr dish_ids_str] in
  price <- lift (getitem data "total_price");;
  let total_price := PTuple [price] in
  let order_status := PStr "received" in
  if negb (truthy customer_name) || negb (truthy dish_ids) then
    ret (error_body "Customer name and item IDs are required", 400)
  else
    let new_order := FoodOrder.mk customer_name dish_ids total_price order_status in
    create_order_try E new_order.

(** [PUT /orders/<int:order_id>] *)
Definition update_order_status (E : env) (order_id : Z) (data : dict) : M response :=
  let new_status := dict_get data "order_status" in
  order <- food_order_get order_id;;
  match order with
  | None => ret (error_body "Order not found", 404)
  | Some o =>
      record (DirtyFoodOrder order_id (FoodOrder.set_order_status new_status o));;;
      try_except (commit E;;;
                  ret (message_body "Order status updated successfully", 200))
                 (λ e, rollback;;;
                       ret (error_body "Failed to update order status", 500))
  end.

Definition order_dict (order : Z * FoodOrder.t) : value :=
  PDict [("id", PInt order.1);
         ("customer_name", FoodOrder.customer_name order.2);
         ("order_status", FoodOrder.order_status order.2)].

(** [GET /orders/customer/<string:customer_name>] *)
Definition get_orders_by_customer (customer_name : string) : M response :=
  orders <- food_order_filter_by FoodOrder.customer_name customer_name;;
  match orders with
  | [] => ret (message_body "No orders found for this customer", 200)
  | _ :: _ => ret (jsonify [("orders", PList (order_dict <$> orders))], 200)
  end.

(** [GET /orders/status/<string:order_status>]; the route always passes a
    string, [None] is the branch the source keeps for a missing one. *)
Definition get_orders_by_status (order_status : option string) : M response :=
  orders <- match order_status with
            | Some s => food_order_filter_by FoodOrder.order_status s
            | None => food_order_all
            end;;
  match orders with
  | [] => ret (message_body "No orders found with this status", 200)
  | _ :: _ => ret (jsonify [("orders", PList (order_dict <$> orders))], 200)
  end.

(** ** What the server holds *)

(** The ORM hands the bound values to the mysql:// driver, which writes a
    list or a tuple as its items in parentheses; in SQL a parenthesised
    single value is that value.  [written v] is the value the statement
    carries for the bound value [v]: [v] itself, without the wrappers
    around a single item. *)
Fixpoint written (v : value) : value :=
  match v with
  | PList (x :: nil) => written x
  | PTuple (x :: nil) => written x
  | _ => v
  end.

(** The row the driver writes for a bound [FoodOrder]. *)
Definition written_order (o : FoodOrder.t) : FoodOrder.t :=
  FoodOrder.mk (written (FoodOrder.customer_name o)) (written (FoodOrder.dish_ids o))
               (written (FoodOrder.total_price o)) (written (FoodOrder.order_status o)).



(** The [id] field of a serialised row. *)
Definition dict_id (v : value) : option Z :=
  match v with
  | PDict ((_, PInt id) :: _) => Some id
  | _ => None
  end.

(** ** Sample requests *)

Definition accepting : env := mkEnv None None.
Definition rejecting : env :=
  mkEnv (Some (DatabaseError "MySQL server has gone away")) None.
Definition unreachable : env :=
  mkEnv None (Some (DatabaseError "Can't connect to MySQL server")).

Definition empty_db : database := mkDatabase ∅ ∅ 1 1.

Definition dosa : MenuItem.t :=
  MenuItem.mk (PStr "Dosa") (PStr "Crisp rice crepe") (PInt 60) (PBool true) (PInt 0).

Definition dosa_payload : dict :=
  [("name", PStr "Dosa"); ("description", PStr "Crisp rice crepe");
   ("price", PInt 60); ("availability", PBool true); ("sold_count", PInt 0)].

Definition ann_order : FoodOrder.t :=
  FoodOrder.mk (PStr "Ann") (PTuple [PStr "1,2"]) (PTuple [PInt 120]) (PStr "received").

Definition ann_payload : dict :=
  [("customer_name", PStr "Ann"); ("dish_ids", PList [PStr "1"; PStr "2"]);
   ("total_price", PInt 120)].

(** One menu item with id 1 and one order with id 1. *)
Definition small_db : database :=
  mkDatabase {[ 1 := dosa ]} {[ 1 := ann_order ]} 2 2.

(** ** The routes *)

(** [GET /] *)
Definition hello_world : M response := ret (PStr "Hello, World!", 200).

(** A request as the [@app.route] table dispatches it: the method and rule
    that matched, with the converted path argument and the JSON body. *)
Inductive request : Type :=
  | GetRoot
  | PostMenuAdd (data : dict)
  | GetMenu
  | PutMenuUpdate (item_id : Z) (data : dict)
  | DeleteMenuDelete (item_id : Z)
  | PostOrders (data : dict)
  | PutOrders (order_id : Z) (data : dict)
  | GetOrdersCustomer (customer_name : string)
  | GetOrdersStatus (order_status : string).

Definition route (E : env) (r : request) : M response :=
  match r with
  | GetRoot => hello_world
  | PostMenuAdd data => add_menu_item E data
  | GetMenu => get_menu_items E
  | PutMenuUpdate item_id data => update_menu_item E item_id data
  | DeleteMenuDelete item_id => delete_menu_item E item_id
  | PostOrders data => create_order E data
  | PutOrders order_id data => update_order_status E order_id data
  | GetOrdersCustomer customer_name => get_orders_by_customer customer_name
  | GetOrdersStatus order_status => get_orders_by_status (Some order_status)
  end.

(** The database after one request, and after a sequence of them, each with
    its own commit outcome. *)
Definition handle (d : database) (q : env * request) : database :=
  (serve (route q.1 q.2) d).2.

Definition run (d : database) (qs : list (env * request)) : database :=
  foldl handle d qs.

(** The keys [add_menu_item] and [update_menu_item] subscript, in the order
    of the source. *)
Definition menu_item_keys : list string :=
  ["name"; "description"; "price"; "availability"; "sold_count"].

Definition missing (data : dict) (k : string) : bool :=
  match dict_lookup data k with
  | Some _ => false
  | None => true
  end.

Definition first_missing (ks : list string) (data : dict) : option string :=
  List.find (missing data) ks.

(** Every primary key in use is below the auto-increment counter of its
    table. *)
Definition ids_below (d : database) : Prop :=
  map_Forall (λ k _, k < menu_item_next d) (menu_item d)
  ∧ map_Forall (λ k _, k < food_order_next d) (food_order d).

(** The objects under the [orders] key of an answer; none when the answer
    has no such key. *)
Definition listed_orders (r : result response) : list value :=
  match r with
  | Ok (PDict kvs, _) =>
      match dict_lookup kvs "orders" with
      | Some (PList objs) => objs
      | _ => []
      end
  | _ => []
  end.

(** The status codes the [return] statements of each menu handler carry. *)
Definition menu_statuses (r : request) : list Z :=
  match r with
  | PostMenuAdd _ => [201; 400]
  | GetMenu => [200; 500]
  | PutMenuUpdate _ _ => [200; 404; 400]
  | DeleteMenuDelete _ => [200; 404; 400]
  | _ => []
  end.

Definition is_menu_request (r : request) : bool :=
  match r with
  | PostMenuAdd _ | GetMenu | PutMenuUpdate _ _ | DeleteMenuDelete _ => true
  | _ => false
  end.

(** * Properties *)

(** ** Running a handler *)

Ltac unfold_handlers :=
  unfold add_menu_item, add_menu_item_body, get_menu_items, get_menu_items_body,
    update_menu_item, update_menu_item_body, delete_menu_item,
    delete_menu_item_body, create_order, create_order_try, create_order_body,
    update_order_status, get_orders_by_customer, get_orders_by_status.

Ltac unfold_monad :=
  unfold serve, try_except, bind, lift, ret, raise, record, commit, rollback,
    menu_item_all, menu_item_get, food_order_all, food_order_get,
    food_order_filter_by, getitem.

(** Unfolds the handler and the monad, then replaces every dict lookup and
    commit outcome the context knows. *)
Ltac exec :=
  unfold_handlers; unfold_monad; cbn [db session];
  repeat match goal with
         | H : dict_lookup _ _ = _ |- _ => rewrite !H; cbn [db session]
         | H : commit_fault _ = _ |- _ => rewrite !H; cbn [db session]
         | H : query_fault _ = _ |- _ => rewrite !H; cbn [db session]
         | H : @lookup _ _ (gmap _ _) _ _ _ = _ |- _ => rewrite !H; cbn [db session]
         end.

Lemma is_str_spec s v : is_str s v = true ↔ v = PStr s.
Proof.
  destruct v; simpl; try (split; [discriminate | intros [=]]).
  rewrite String.eqb_eq. split; [by intros -> | by intros [= ->]].
Qed.

(** ** [str.join] on a list of strings *)

Lemma str_items_strs i (ids : list string) : str_items i (PStr <$> ids) = Ok ids.
Proof.
  revert i. induction ids as [|s ids IH]; intros i; simpl; [done|].
  by rewrite IH.
Qed.

Lemma py_join_strs sep (ids : list string) :
  py_join sep (PList (PStr <$> ids)) = Ok (join sep ids).
Proof. unfold py_join. by rewrite str_items_strs. Qed.

(** ** The serialisation loop of [get_menu_items] *)

Lemma foldl_append {A B} (f : A → B) (acc : list B) (l : list A) :
  foldl (λ acc x, (acc ++ [f x])%list) acc l = (acc ++ (f <$> l))%list.
Proof.
  revert acc. induction l as [|x l IH]; intros acc; simpl.
  - by rewrite app_nil_r.
  - rewrite IH. by rewrite <- app_assoc.
Qed.

Lemma get_menu_items_run (E : env) (w : world) :
  query_fault E = None →
  get_menu_items E w
  = (Ok (PList (menu_item_dict <$> map_to_list (menu_item (db w))), 200), w).
Proof. intros HE. exec. by rewrite foldl_append. Qed.

Lemma get_menu_items_fails (E : env) (w : world) (e : exn) :
  query_fault E = Some e →
  get_menu_items E w = (Ok (error_body (str e), 500), w).
Proof. intros HE. by exec. Qed.

Lemma get_menu_items_world (E : env) (w : world) : (get_menu_items E w).2 = w.
Proof.
  destruct (query_fault E) as [e|] eqn:HE.
  - by rewrite (get_menu_items_fails E w e).
  - by rewrite get_menu_items_run.
Qed.

(** ** [create_order] *)

(** C1.  A POST /orders body that lacks [customer_name] or [dish_ids] never
    reaches the 400 branch: the subscript (or the join before it) raises
    ahead of the check and outside any [try], so the exception leaves the
    view function.  No row is persisted. *)
Theorem create_order_missing_key_propagates (E : env) (data : dict) (d : database) :
  dict_lookup data "customer_name" = None ∨ dict_lookup data "dish_ids" = None →
  ∃ e, serve (create_order E data) d = (Raise e, d)
       ∧ http_status (serve (create_order E data) d).1 = 500.
Proof.
  intros Hmissing.
  destruct (dict_lookup data "dish_ids") as [ids|] eqn:Hids.
  - destruct Hmissing as [Hname|?]; [|done].
    destruct (py_join "," ids) as [joined|e] eqn:Hjoin.
    + exists (KeyError "customer_name"). exec. by rewrite Hjoin.
    + exists e. exec. by rewrite Hjoin.
  - exists (KeyError "dish_ids"). by exec.
Qed.

Lemma create_order_missing_key_witness :
  let data := [("dish_ids", PList [PStr "1"]); ("total_price", PInt 60)] in
  dict_lookup data "customer_name" = None
  ∧ ∃ e, serve (create_order accepting data) small_db = (Raise e, small_db)
         ∧ http_status (serve (create_order accepting data) small_db).1 = 500.
Proof.
  split; [reflexivity|].
  apply create_order_missing_key_propagates. left. reflexivity.
Defined.

(** The same request, evaluated: the [KeyError] for [customer_name]. *)
Example create_order_without_customer_name :
  serve (create_order accepting [("dish_ids", PList [PStr "1"]); ("total_price", PInt 60)])
        small_db
  = (Raise (KeyError "customer_name"), small_db).
Proof. reflexivity. Qed.

Example create_order_without_dish_ids :
  serve (create_order accepting [("customer_name", PStr "Ann"); ("total_price", PInt 60)])
        small_db
  = (Raise (KeyError "dish_ids"), small_db).
Proof. reflexivity. Qed.


Lemma written_tuple (v : value) : written (PTuple [v]) = written v.
Proof. reflexivity. Qed.

Lemma written_scalar (v : value) :
  (∀ xs, v ≠ PList xs) → (∀ xs, v ≠ PTuple xs) → written v = v.
Proof. intros Hl Ht. destruct v; try done; [destruct (Hl xs)|destruct (Ht xs)]; done. Qed.



(** The persisted row of Ann's order: the string "1,2" and the number
    120. *)
Example create_order_ann_persisted :
  ∃ d', serve (create_order accepting ann_payload) empty_db
          = (Ok (message_body "Order created successfully", 201), d')
        ∧ written_order <$> food_order d' !! 1
          = Some (FoodOrder.mk (PStr "Ann") (PStr "1,2") (PInt 120) (PStr "received")).
Proof. eexists. split; reflexivity. Qed.

(** The row that request binds: neither the string "1,2" nor the number
    120. *)
Example create_order_ann_row :
  ∃ d', serve (create_order accepting ann_payload) empty_db
          = (Ok (message_body "Order created successfully", 201), d')
        ∧ food_order d' !! 1 = Some ann_order
        ∧ FoodOrder.dish_ids ann_order ≠ PStr "1,2"
        ∧ FoodOrder.total_price ann_order ≠ PInt 120.
Proof. eexists. repeat split; try reflexivity; discriminate. Qed.

(** Because [dish_ids] is a one-element tuple when the check runs, it is
    always truthy: an empty list of dish ids passes the check. *)
Lemma create_order_empty_dish_ids (E : env) (d : database) :
  commit_fault E = None →
  http_status (serve (create_order E [("customer_name", PStr "Ann");
                                      ("dish_ids", PList []);
                                      ("total_price", PInt 0)]) d).1 = 201.
Proof. intros HE. exec. cbn. rewrite ?HE. reflexivity. Qed.

(** C4.  An order with an empty [customer_name] is to be answered with 400,
    and the check of lines 169-171 is there to do so; but the handler
    subscripts [dish_ids] ahead of the check and outside any [try], so the
    body that carries the empty name alone raises [KeyError] instead (the
    slip of C1).  No row is persisted. *)
Lemma create_order_empty_name_alone :
  let data := [("customer_name", PStr "")] in
  dict_lookup data "customer_name" = Some (PStr "")
  ∧ serve (create_order accepting data) small_db = (Raise (KeyError "dish_ids"), small_db)
  ∧ http_status (serve (create_order accepting data) small_db).1 ≠ 400.
Proof. repeat split; try reflexivity. discriminate. Qed.

(** Once the subscripts succeed the check works: a POST /orders body with
    [dish_ids] a list of strings, a [total_price], and the empty string as
    [customer_name] is answered with 400 and the database is unchanged. *)
Lemma create_order_empty_name (E : env) (data : dict) (d : database)
    (ids : list string) (price : value) :
  dict_lookup data "customer_name" = Some (PStr "") →
  dict_lookup data "dish_ids" = Some (PList (PStr <$> ids)) →
  dict_lookup data "total_price" = Some price →
  serve (create_order E data) d
  = (Ok (error_body "Customer name and item IDs are required", 400), d).
Proof. intros Hname Hids Hprice. exec. by rewrite py_join_strs. Qed.

Lemma create_order_empty_name_witness :
  serve (create_order rejecting
           [("customer_name", PStr ""); ("dish_ids", PList [PStr "1"; PStr "2"]);
            ("total_price", PInt 120)]) small_db
  = (Ok (error_body "Customer name and item IDs are required", 400), small_db).
Proof.
  apply (create_order_empty_name _ _ _ ["1"; "2"] (PInt 120)); reflexivity.
Defined.

(** ** Menu items *)

(** C5.  PUT /menu/update/<id> with all five fields in the body, for an id
    that has no row, is answered with 404 and leaves the database as it
    was. *)
Theorem update_menu_item_not_found (E : env) (item_id : Z) (data : dict) (d : database)
    (name description price availability sold_count : value) :
  dict_lookup data "name" = Some name →
  dict_lookup data "description" = Some description →
  dict_lookup data "price" = Some price →
  dict_lookup data "availability" = Some availability →
  dict_lookup data "sold_count" = Some sold_count →
  menu_item d !! item_id = None →
  serve (update_menu_item E item_id data) d
  = (Ok (error_body "Menu item not found", 404), d).
Proof. intros Hn Hd Hp Ha Hs Hrow. by exec. Qed.

Lemma update_menu_item_not_found_witness :
  serve (update_menu_item accepting 7 dosa_payload) small_db
  = (Ok (error_body "Menu item not found", 404), small_db).
Proof.
  apply (update_menu_item_not_found _ _ _ _ (PStr "Dosa") (PStr "Crisp rice crepe")
           (PInt 60) (PBool true) (PInt 0)); reflexivity.
Defined.

(** C6, as stated, fails: when the server rejects the commit of the first
    DELETE the answer is 400 and the row stays. *)
Lemma delete_menu_item_rejected :
  menu_item small_db !! 1 = Some dosa
  ∧ serve (delete_menu_item rejecting 1) small_db
    = (Ok (error_body "MySQL server has gone away", 400), small_db).
Proof. split; reflexivity. Qed.

(** C6, amended.  In a state with a MenuItem row of id [k], when the server
    accepts the commit of the first call, DELETE /menu/delete/<k> is
    answered with 200 and removes exactly that row, and a second DELETE of
    [k] is answered with 404. *)
Theorem delete_menu_item_twice (E1 E2 : env) (k : Z) (item : MenuItem.t) (d : database) :
  menu_item d !! k = Some item →
  commit_fault E1 = None →
  ∃ d1,
    serve (delete_menu_item E1 k) d
      = (Ok (message_body "Menu item deleted successfully", 200), d1)
    ∧ d1 = mkDatabase (delete k (menu_item d)) (food_order d)
                      (menu_item_next d) (food_order_next d)
    ∧ menu_item d1 !! k = None
    ∧ serve (delete_menu_item E2 k) d1
      = (Ok (error_body "Menu item not found", 404), d1).
Proof.
  intros Hrow HE.
  exists (mkDatabase (delete k (menu_item d)) (food_order d)
                     (menu_item_next d) (food_order_next d)).
  assert (delete k (menu_item d) !! k = None) as Hgone by apply lookup_delete_eq.
  split; [by exec|]. split; [reflexivity|]. split; [exact Hgone|].
  exec. cbn [menu_item]. by rewrite Hgone.
Qed.

Lemma delete_menu_item_twice_witness :
  ∃ d1,
    serve (delete_menu_item accepting 1) small_db
      = (Ok (message_body "Menu item deleted successfully", 200), d1)
    ∧ d1 = mkDatabase (delete 1 (menu_item small_db)) (food_order small_db)
                      (menu_item_next small_db) (food_order_next small_db)
    ∧ menu_item d1 !! 1 = None
    ∧ serve (delete_menu_item rejecting 1) d1
      = (Ok (error_body "Menu item not found", 404), d1).
Proof. apply (delete_menu_item_twice accepting rejecting 1 dosa); reflexivity. Defined.




(** ** Exceptions in the handlers *)

(** C3, as stated, fails for [update_order_status]: the exception its commit
    raises is caught, but the error field is a fixed text, not [str(e)]. *)
Lemma update_order_status_generic_error :
  let e := DatabaseError "MySQL server has gone away" in
  let data := [("order_status", PStr "ready")] in
  let w := mkWorld small_db
             [DirtyFoodOrder 1 (FoodOrder.set_order_status (PStr "ready") ann_order)] in
  commit rejecting w = (Raise e, w)
  ∧ serve (update_order_status rejecting 1 data) small_db
    = (Ok (error_body "Failed to update order status", 500), small_db)
  ∧ error_body "Failed to update order status" ≠ error_body (str e).
Proof. repeat split; try reflexivity. discriminate. Qed.

(** C3, amended.  Every exception raised inside a [try] block is caught,
    and all but one handler answer it with its text: [add_menu_item],
    [update_menu_item] and [delete_menu_item] answer a missing key or a
    rejected commit with 400 and an error field equal to [str(e)];
    [get_menu_items] answers a failing query with 500 and [str(e)];
    [create_order] answers a rejected commit with 500 and [str(e)] after a
    rollback.  [update_order_status] catches the exception of its commit
    and rolls back too, but answers 500 with the fixed text
    'Failed to update order status'.  In every case the database is as it
    was. *)
Theorem handlers_catch_exceptions (E : env) (data : dict) (d : database) (e : exn) :
  (∀ k, first_missing menu_item_keys data = Some k →
        serve (add_menu_item E data) d = (Ok (error_body (str (KeyError k)), 400), d))
  ∧ (first_missing menu_item_keys data = None → commit_fault E = Some e →
     serve (add_menu_item E data) d = (Ok (error_body (str e), 400), d))
  ∧ (query_fault E = Some e →
     serve (get_menu_items E) d = (Ok (error_body (str e), 500), d))
  ∧ (∀ item_id k, first_missing menu_item_keys data = Some k →
        serve (update_menu_item E item_id data) d
        = (Ok (error_body (str (KeyError k)), 400), d))
  ∧ (∀ item_id, first_missing menu_item_keys data = None →
        is_Some (menu_item d !! item_id) → commit_fault E = Some e →
        serve (update_menu_item E item_id data) d = (Ok (error_body (str e), 400), d))
  ∧ (∀ item_id, is_Some (menu_item d !! item_id) → commit_fault E = Some e →
        serve (delete_menu_item E item_id) d = (Ok (error_body (str e), 400), d))
  ∧ (∀ name ids joined price,
        dict_lookup data "customer_name" = Some name →
        dict_lookup data "dish_ids" = Some ids →
        py_join "," ids = Ok joined →
        dict_lookup data "total_price" = Some price →
        truthy name = true → commit_fault E = Some e →
        create_order E data (mkWorld d [])
        = (Ok (error_body (str e), 500), mkWorld d []))
  ∧ (∀ order_id, is_Some (food_order d !! order_id) → commit_fault E = Some e →
        update_order_status E order_id data (mkWorld d [])
        = (Ok (error_body "Failed to update order status", 500), mkWorld d [])).
Proof.
  unfold first_missing, menu_item_keys, missing. cbn [List.find].
  repeat split.
  - intros k.
    destruct (dict_lookup data "name") eqn:Hn; [|intros [= <-]; by exec].
    destruct (dict_lookup data "description") eqn:Hd; [|intros [= <-]; by exec].
    destruct (dict_lookup data "price") eqn:Hp; [|intros [= <-]; by exec].
    destruct (dict_lookup data "availability") eqn:Ha; [|intros [= <-]; by exec].
    destruct (dict_lookup data "sold_count") eqn:Hs; [|intros [= <-]; by exec].
    discriminate.
  - destruct (dict_lookup data "name") eqn:Hn; [|discriminate].
    destruct (dict_lookup data "description") eqn:Hd; [|discriminate].
    destruct (dict_lookup data "price") eqn:Hp; [|discriminate].
    destruct (dict_lookup data "availability") eqn:Ha; [|discriminate].
    destruct (dict_lookup data "sold_count") eqn:Hs; [|discriminate].
    intros _ HE. by exec.
  - intros HE. unfold serve. by rewrite (get_menu_items_fails E _ e HE).
  - intros item_id k.
    destruct (dict_lookup data "name") eqn:Hn; [|intros [= <-]; by exec].
    destruct (dict_lookup data "description") eqn:Hd; [|intros [= <-]; by exec].
    destruct (dict_lookup data "price") eqn:Hp; [|intros [= <-]; by exec].
    destruct (dict_lookup data "availability") eqn:Ha; [|intros [= <-]; by exec].
    destruct (dict_lookup data "sold_count") eqn:Hs; [|intros [= <-]; by exec].
    discriminate.
  - intros item_id.
    destruct (dict_lookup data "name") eqn:Hn; [|discriminate].
    destruct (dict_lookup data "description") eqn:Hd; [|discriminate].
    destruct (dict_lookup data "price") eqn:Hp; [|discriminate].
    destruct (dict_lookup data "availability") eqn:Ha; [|discriminate].
    destruct (dict_lookup data "sold_count") eqn:Hs; [|discriminate].
    intros _ [old Hold] HE. by exec.
  - intros item_id [old Hold] HE. by exec.
  - intros name ids joined price Hn Hi Hj Hp Hname HE. exec.
    rewrite Hj. cbn. rewrite Hname. cbn. rewrite ?HE.
    by destruct d.
  - intros order_id [old Hold] HE. exec. by destruct d.
Qed.

Lemma handlers_catch_exceptions_witness :
  let gone := DatabaseError "MySQL server has gone away" in
  let down := DatabaseError "Can't connect to MySQL server" in
  serve (add_menu_item accepting [("name", PStr "Dosa")]) small_db
    = (Ok (error_body "'description'", 400), small_db)
  ∧ serve (add_menu_item rejecting dosa_payload) small_db
    = (Ok (error_body (str gone), 400), small_db)
  ∧ serve (get_menu_items unreachable) small_db
    = (Ok (error_body (str down), 500), small_db)
  ∧ serve (update_menu_item accepting 1 [("name", PStr "Dosa")]) small_db
    = (Ok (error_body "'description'", 400), small_db)
  ∧ serve (update_menu_item rejecting 1 dosa_payload) small_db
    = (Ok (error_body (str gone), 400), small_db)
  ∧ serve (delete_menu_item rejecting 1) small_db
    = (Ok (error_body (str gone), 400), small_db)
  ∧ create_order rejecting ann_payload (mkWorld small_db [])
    = (Ok (error_body (str gone), 500), mkWorld small_db [])
  ∧ update_order_status rejecting 1 [("order_status", PStr "ready")] (mkWorld small_db [])
    = (Ok (error_body "Failed to update order status", 500), mkWorld small_db []).
Proof.
  intros gone down.
  pose proof (handlers_catch_exceptions accepting [("name", PStr "Dosa")] small_db gone)
    as (Hadd & _ & _ & Hupdate & _).
  pose proof (handlers_catch_exceptions rejecting dosa_payload small_db gone)
    as (_ & Hadd' & _ & _ & Hupdate' & Hdelete & _).
  pose proof (handlers_catch_exceptions unreachable [] small_db down)
    as (_ & _ & Hlist & _).
  pose proof (handlers_catch_exceptions rejecting ann_payload small_db gone)
    as (_ & _ & _ & _ & _ & _ & Hcreate & _).
  pose proof (handlers_catch_exceptions rejecting [("order_status", PStr "ready")]
                small_db gone) as (_ & _ & _ & _ & _ & _ & _ & Hput).
  split; [apply (Hadd "description"); reflexivity|].
  split; [apply Hadd'; reflexivity|].
  split; [apply Hlist; reflexivity|].
  split; [apply (Hupdate 1 "description"); reflexivity|].
  split; [apply (Hupdate' 1); [reflexivity | by exists dosa | reflexivity]|].
  split; [apply (Hdelete 1); [by exists dosa | reflexivity]|].
  split; [apply (Hcreate (PStr "Ann") (PList [PStr "1"; PStr "2"]) "1,2" (PInt 120));
          reflexivity|].
  apply (Hput 1); [by exists ann_order | reflexivity].
Defined.

(** ** Order status *)

(** C7.  PUT /orders/<id>: without a row of that id the answer is 404 and
    nothing changes; with one, when the server accepts the commit, the
    row's [order_status] becomes the body's [order_status] value (None when
    the body has none), every other column and row stays, and the answer is
    200; when the commit raises, the session is rolled back, the database
    is as before, and the answer is 500 with a fixed text. *)
Theorem update_order_status_cases (E : env) (order_id : Z) (data : dict) (d : database) :
  (food_order d !! order_id = None →
     update_order_status E order_id data (mkWorld d [])
     = (Ok (error_body "Order not found", 404), mkWorld d []))
  ∧ (∀ o, food_order d !! order_id = Some o → commit_fault E = None →
       update_order_status E order_id data (mkWorld d [])
       = (Ok (message_body "Order status updated successfully", 200),
          mkWorld (mkDatabase (menu_item d)
                     (<[order_id := FoodOrder.mk (FoodOrder.customer_name o)
                                      (FoodOrder.dish_ids o) (FoodOrder.total_price o)
                                      (dict_get data "order_status")]> (food_order d))
                     (menu_item_next d) (food_order_next d)) []))
  ∧ (∀ o e, food_order d !! order_id = Some o → commit_fault E = Some e →
       update_order_status E order_id data (mkWorld d [])
       = (Ok (error_body "Failed to update order status", 500), mkWorld d [])).
Proof.
  repeat split.
  - intros Hrow. by exec.
  - intros o Hrow HE. by exec.
  - intros o e Hrow HE. exec. by destruct d.
Qed.

Lemma update_order_status_cases_witness :
  update_order_status accepting 9 [("order_status", PStr "ready")] (mkWorld small_db [])
    = (Ok (error_body "Order not found", 404), mkWorld small_db [])
  ∧ update_order_status accepting 1 [("order_status", PStr "ready")] (mkWorld small_db [])
    = (Ok (message_body "Order status updated successfully", 200),
       mkWorld (mkDatabase {[ 1 := dosa ]}
                  {[ 1 := FoodOrder.mk (PStr "Ann") (PTuple [PStr "1,2"])
                            (PTuple [PInt 120]) (PStr "ready") ]} 2 2) [])
  ∧ update_order_status rejecting 1 [("order_status", PStr "ready")] (mkWorld small_db [])
    = (Ok (error_body "Failed to update order status", 500), mkWorld small_db []).
Proof.
  split; [|split].
  - apply (update_order_status_cases accepting 9 _ small_db). reflexivity.
  - apply (proj1 (proj2 (update_order_status_cases accepting 1
                           [("order_status", PStr "ready")] small_db)) ann_order);
      reflexivity.
  - apply (proj2 (proj2 (update_order_status_cases rejecting 1
                           [("order_status", PStr "ready")] small_db)) ann_order
             (DatabaseError "MySQL server has gone away"));
      reflexivity.
Defined.

(** ** Order queries *)

Section filter_by.
Variable col : FoodOrder.t → value.
Variable s : string.
Variable d : database.

(** [filter_by] selects exactly the rows whose column is the string. *)
Lemma filter_by_elem id o :
  (id, o) ∈ List.filter (λ o, is_str s (col o.2)) (map_to_list (food_order d))
  ↔ food_order d !! id = Some o ∧ col o = PStr s.
Proof.
  rewrite list_elem_of_In, filter_In, <- list_elem_of_In.
  rewrite elem_of_map_to_list. cbn. by rewrite is_str_spec.
Qed.

Lemma filter_by_NoDup_fst :
  NoDup (List.filter (λ o, is_str s (col o.2)) (map_to_list (food_order d))).*1.
Proof.
  pose proof (NoDup_fst_map_to_list (food_order d)) as Hnodup.
  induction (map_to_list (food_order d)) as [|x l IH]; [constructor|].
  cbn in Hnodup. apply NoDup_cons in Hnodup as [Hx Hl].
  cbn. destruct (is_str s (col x.2)); [|by apply IH].
  cbn. apply NoDup_cons. split; [|by apply IH].
  intros Hin. apply Hx.
  apply list_elem_of_fmap in Hin as (y & -> & Hy).
  apply list_elem_of_fmap. exists y. split; [done|].
  apply list_elem_of_In. apply list_elem_of_In, filter_In in Hy. tauto.
Qed.
End filter_by.

(** One object per row: rows with different ids serialise differently. *)
Lemma order_dict_NoDup (l : list (Z * FoodOrder.t)) :
  NoDup l.*1 → NoDup (order_dict <$> l).
Proof.
  intros Hl. apply (NoDup_fmap_1 dict_id).
  rewrite <- list_fmap_compose.
  replace (dict_id ∘ order_dict <$> l) with (Some <$> l.*1).
  - by apply (NoDup_fmap_2 Some).
  - rewrite <- list_fmap_compose. by apply list_fmap_ext.
Qed.

(** C9.  GET /orders/customer/<name>: when no order row has exactly that
    [customer_name], the answer is 200 with a message and no error field;
    otherwise it is 200 with, for each matching row and nothing else, one
    object made of exactly [id], [customer_name] and [order_status]. *)
Theorem get_orders_by_customer_spec (customer_name : string) (d : database) :
  let matching := λ id o, food_order d !! id = Some o
                          ∧ FoodOrder.customer_name o = PStr customer_name in
  ((∀ id o, ¬ matching id o) →
     ∃ body, serve (get_orders_by_customer customer_name) d = (Ok (PDict body, 200), d)
             ∧ body = [("message", PStr "No orders found for this customer")]
             ∧ dict_lookup body "error" = None)
  ∧ ((∃ id o, matching id o) →
     ∃ objs, serve (get_orders_by_customer customer_name) d
               = (Ok (PDict [("orders", PList objs)], 200), d)
             ∧ NoDup objs
             ∧ ∀ obj, obj ∈ objs ↔
                 ∃ id o, matching id o
                         ∧ obj = PDict [("id", PInt id);
                                        ("customer_name", FoodOrder.customer_name o);
                                        ("order_status", FoodOrder.order_status o)]).
Proof.
  intros matching.
  pose proof (filter_by_elem FoodOrder.customer_name customer_name d) as Helem.
  pose proof (filter_by_NoDup_fst FoodOrder.customer_name customer_name d) as Hnodup.
  unfold get_orders_by_customer. unfold_monad. cbn [db session].
  destruct (List.filter _ _) as [|x l] eqn:Hsel; split.
  - intros _. eexists. repeat split.
  - intros (id & o & Hm). apply Helem in Hm. by apply elem_of_nil in Hm.
  - intros Hnone. destruct x as [id o]. destruct (Hnone id o). apply Helem. by left.
  - intros _. eexists. split; [reflexivity|]. split; [by apply order_dict_NoDup|].
    intros obj. rewrite list_elem_of_fmap. split.
    + intros ([id o] & -> & Hin). exists id, o. split; [by apply Helem|done].
    + intros (id & o & Hm & ->). exists (id, o). split; [done|by apply Helem].
Qed.

Lemma get_orders_by_customer_spec_witness :
  (∃ body, serve (get_orders_by_customer "Bob") small_db = (Ok (PDict body, 200), small_db)
           ∧ body = [("message", PStr "No orders found for this customer")]
           ∧ dict_lookup body "error" = None)
  ∧ (∃ objs, serve (get_orders_by_customer "Ann") small_db
               = (Ok (PDict [("orders", PList objs)], 200), small_db)
             ∧ NoDup objs
             ∧ ∀ obj, obj ∈ objs ↔
                 ∃ id o, (food_order small_db !! id = Some o
                          ∧ FoodOrder.customer_name o = PStr "Ann")
                         ∧ obj = PDict [("id", PInt id);
                                        ("customer_name", FoodOrder.customer_name o);
                                        ("order_status", FoodOrder.order_status o)]).
Proof.
  split.
  - apply (get_orders_by_customer_spec "Bob" small_db).
    intros id o [Hrow Hname].
    unfold small_db in Hrow. cbn [food_order] in Hrow.
    apply lookup_singleton_Some in Hrow as [_ <-]. discriminate.
  - apply (get_orders_by_customer_spec "Ann" small_db).
    exists 1, ann_order. split; reflexivity.
Defined.

(** The answer for the customer of [small_db]. *)
Example get_orders_by_customer_ann :
  serve (get_orders_by_customer "Ann") small_db
  = (Ok (PDict [("orders", PList [PDict [("id", PInt 1); ("customer_name", PStr "Ann");
                                         ("order_status", PStr "received")]])], 200),
     small_db).
Proof. reflexivity. Qed.

(** ** Read endpoints *)

Lemma serve_preserves (h : M response) :
  (∀ w, (h w).2 = w) → ∀ d, (serve h d).2 = d.
Proof.
  intros Hh d. unfold serve. specialize (Hh (mkWorld d [])).
  destruct (h _) as [r w]. simpl in *. by subst.
Qed.

(** C10.  GET /menu, GET /orders/customer/<name> and GET /orders/status/<status>
    leave the session and the database exactly as they found them. *)
Theorem read_endpoints_preserve_database :
  (∀ E w, (get_menu_items E w).2 = w)
  ∧ (∀ customer_name w, (get_orders_by_customer customer_name w).2 = w)
  ∧ (∀ order_status w, (get_orders_by_status order_status w).2 = w)
  ∧ (∀ E d, (serve (get_menu_items E) d).2 = d)
  ∧ (∀ customer_name d, (serve (get_orders_by_customer customer_name) d).2 = d)
  ∧ (∀ order_status d, (serve (get_orders_by_status order_status) d).2 = d).
Proof.
  assert (∀ E w, (get_menu_items E w).2 = w) as Hmenu by apply get_menu_items_world.
  assert (∀ customer_name w, (get_orders_by_customer customer_name w).2 = w) as Hcustomer.
  { intros name w. unfold get_orders_by_customer. unfold_monad.
    by destruct (List.filter _ _). }
  assert (∀ order_status w, (get_orders_by_status order_status w).2 = w) as Hstatus.
  { intros [status|] w; unfold get_orders_by_status; unfold_monad.
    - by destruct (List.filter _ _).
    - by destruct (map_to_list _). }
  repeat split; intros; try done; by apply serve_preserves.
Qed.

(** * Further properties of the handlers *)

(** ** Missing keys in the menu handlers *)

(** X1.  POST /menu/add with a body that lacks one of the five keys is
    answered with 400, the error field is the [KeyError] text of the first
    key the source subscripts that is missing, and the database is
    unchanged. *)
Theorem add_menu_item_missing_key (E : env) (data : dict) (d : database) (k : string) :
  first_missing menu_item_keys data = Some k →
  serve (add_menu_item E data) d = (Ok (error_body (str (KeyError k)), 400), d).
Proof.
  unfold first_missing, menu_item_keys, missing. cbn [List.find].
  destruct (dict_lookup data "name") eqn:Hn; [|intros [= <-]; by exec].
  destruct (dict_lookup data "description") eqn:Hd; [|intros [= <-]; by exec].
  destruct (dict_lookup data "price") eqn:Hp; [|intros [= <-]; by exec].
  destruct (dict_lookup data "availability") eqn:Ha; [|intros [= <-]; by exec].
  destruct (dict_lookup data "sold_count") eqn:Hs; [|intros [= <-]; by exec].
  discriminate.
Qed.

Lemma add_menu_item_missing_key_witness :
  serve (add_menu_item accepting [("name", PStr "Dosa"); ("price", PInt 60)]) small_db
  = (Ok (error_body "'description'", 400), small_db).
Proof. apply (add_menu_item_missing_key _ _ _ "description"). reflexivity. Defined.

(** X2.  PUT /menu/update/<id> reads the five keys before it looks the row
    up: a body that lacks one is answered with 400 and the [KeyError] text of
    the first missing key, whether or not a row with that id exists, and the
    database is unchanged. *)
Theorem update_menu_item_missing_key (E : env) (item_id : Z) (data : dict) (d : database)
    (k : string) :
  first_missing menu_item_keys data = Some k →
  serve (update_menu_item E item_id data) d = (Ok (error_body (str (KeyError k)), 400), d).
Proof.
  unfold first_missing, menu_item_keys, missing. cbn [List.find].
  destruct (dict_lookup data "name") eqn:Hn; [|intros [= <-]; by exec].
  destruct (dict_lookup data "description") eqn:Hd; [|intros [= <-]; by exec].
  destruct (dict_lookup data "price") eqn:Hp; [|intros [= <-]; by exec].
  destruct (dict_lookup data "availability") eqn:Ha; [|intros [= <-]; by exec].
  destruct (dict_lookup data "sold_count") eqn:Hs; [|intros [= <-]; by exec].
  discriminate.
Qed.

Lemma update_menu_item_missing_key_witness :
  serve (update_menu_item accepting 7 [("name", PStr "Dosa")]) small_db
    = (Ok (error_body "'description'", 400), small_db)
  ∧ serve (update_menu_item accepting 1 [("name", PStr "Dosa")]) small_db
    = (Ok (error_body "'description'", 400), small_db).
Proof.
  split; apply (update_menu_item_missing_key _ _ _ _ "description"); reflexivity.
Defined.

(** ** Updating a menu item *)

(** X3.  PUT /menu/update/<id> with all five keys, for an id that has a row,
    when the commit is accepted: the answer is 200, the row holds exactly
    the five supplied values, and every other menu row, the orders and both
    counters are as before. *)
Theorem update_menu_item_overwrites (E : env) (item_id : Z) (data : dict) (d : database)
    (old : MenuItem.t) (name description price availability sold_count : value) :
  dict_lookup data "name" = Some name →
  dict_lookup data "description" = Some description →
  dict_lookup data "price" = Some price →
  dict_lookup data "availability" = Some availability →
  dict_lookup data "sold_count" = Some sold_count →
  menu_item d !! item_id = Some old →
  commit_fault E = None →
  ∃ d',
    serve (update_menu_item E item_id data) d
      = (Ok (message_body "Menu item updated successfully", 200), d')
    ∧ menu_item d' !! item_id
      = Some (MenuItem.mk name description price availability sold_count)
    ∧ (∀ k, k ≠ item_id → menu_item d' !! k = menu_item d !! k)
    ∧ food_order d' = food_order d
    ∧ menu_item_next d' = menu_item_next d
    ∧ food_order_next d' = food_order_next d.
Proof.
  intros Hn Hd Hp Ha Hs Hrow HE.
  eexists (mkDatabase _ _ _ _). split; [by exec|]. cbn.
  split; [apply lookup_insert_eq|].
  split; [|done]. intros k Hk. by apply lookup_insert_ne.
Qed.

Lemma update_menu_item_overwrites_witness :
  ∃ d',
    serve (update_menu_item accepting 1
             [("name", PStr "Masala dosa"); ("description", PNone); ("price", PInt 80);
              ("availability", PBool false); ("sold_count", PInt 3)]) small_db
      = (Ok (message_body "Menu item updated successfully", 200), d')
    ∧ menu_item d' !! 1
      = Some (MenuItem.mk (PStr "Masala dosa") PNone (PInt 80) (PBool false) (PInt 3))
    ∧ (∀ k, k ≠ 1 → menu_item d' !! k = menu_item small_db !! k)
    ∧ food_order d' = food_order small_db
    ∧ menu_item_next d' = menu_item_next small_db
    ∧ food_order_next d' = food_order_next small_db.
Proof. apply (update_menu_item_overwrites _ _ _ _ dosa); reflexivity. Defined.

(** ** What a request can do to the database *)

(** Case analysis on everything a running handler branches on: the keys of
    the body, the row looked up, the join, the truth of a value, the rows
    selected and the outcome of the commit. *)
Ltac branches :=
  repeat match goal with
         | |- context [dict_lookup ?d ?k] => destruct (dict_lookup d k) eqn:?
         | |- context [py_join ?sep ?v] => destruct (py_join sep v) eqn:?
         | |- context [truthy ?v] => destruct (truthy v) eqn:?
         | |- context [menu_item ?d !! ?k] => destruct (menu_item d !! k) eqn:?
         | |- context [food_order ?d !! ?k] => destruct (food_order d !! k) eqn:?
         | |- context [List.filter ?f ?l] => destruct (List.filter f l) eqn:?
         | |- context [commit_fault ?E] => destruct (commit_fault E) eqn:?
         | |- context [query_fault ?E] => destruct (query_fault E) eqn:?
         end;
  cbn [db session negb orb andb].

(** One request leaves the database as it was or applies exactly one change
    to it; a row it overwrites is a row that exists. *)
Lemma handle_effect (E : env) (r : request) (d : database) :
  handle d (E, r) = d
  ∨ (∃ item, handle d (E, r) = apply_change d (NewMenuItem item))
  ∨ (∃ id item, is_Some (menu_item d !! id)
                ∧ handle d (E, r) = apply_change d (DirtyMenuItem id item))
  ∨ (∃ id, handle d (E, r) = apply_change d (DeletedMenuItem id))
  ∨ (∃ order, handle d (E, r) = apply_change d (NewFoodOrder order))
  ∨ (∃ id order, is_Some (food_order d !! id)
                 ∧ handle d (E, r) = apply_change d (DirtyFoodOrder id order)).
Proof.
  unfold handle. cbn [fst snd].
  destruct r; cbn [route]; unfold hello_world, is_Some.
  3: { left. apply (serve_preserves _ (get_menu_items_world E)). }
  all: unfold_handlers; unfold_monad; unfold dict_get; cbn [db session].
  all: branches; cbn; eauto 10.
Qed.

Lemma ids_below_apply_new_menu_item d item :
  ids_below d → ids_below (apply_change d (NewMenuItem item)).
Proof.
  intros [Hm Ho]. split; [|done]. cbn.
  apply map_Forall_insert_2; [lia|].
  eapply map_Forall_impl; [exact Hm|]. cbn. intros. lia.
Qed.

Lemma ids_below_apply_new_food_order d order :
  ids_below d → ids_below (apply_change d (NewFoodOrder order)).
Proof.
  intros [Hm Ho]. split; [done|]. cbn.
  apply map_Forall_insert_2; [lia|].
  eapply map_Forall_impl; [exact Ho|]. cbn. intros. lia.
Qed.

(** Every request keeps the primary keys below the counters. *)
Lemma ids_below_handle (E : env) (r : request) (d : database) :
  ids_below d → ids_below (handle d (E, r)).
Proof.
  intros Hd.
  destruct (handle_effect E r d)
    as [->|[(item & ->)|[(id & item & [old Hold] & ->)|[(id & ->)|[(o & ->)|
        (id & o & [old Hold] & ->)]]]]]; [done| | | | |].
  - by apply ids_below_apply_new_menu_item.
  - destruct Hd as [Hm Ho]. split; [|done]. cbn.
    apply map_Forall_insert_2; [by apply (Hm id old)|done].
  - destruct Hd as [Hm Ho]. split; [|done]. cbn. by apply map_Forall_delete.
  - by apply ids_below_apply_new_food_order.
  - destruct Hd as [Hm Ho]. split; [done|]. cbn.
    apply map_Forall_insert_2; [by apply (Ho id old)|done].
Qed.

Lemma ids_below_empty_db : ids_below empty_db.
Proof. split; apply map_Forall_empty. Qed.

(** X4.  Starting from the freshly created tables, after any sequence of
    requests with any commit outcomes, every primary key in use is below
    the auto-increment counter of its table: the id the next POST assigns
    is free. *)
Theorem reachable_ids_below (qs : list (env * request)) :
  ids_below (run empty_db qs)
  ∧ menu_item (run empty_db qs) !! menu_item_next (run empty_db qs) = None
  ∧ food_order (run empty_db qs) !! food_order_next (run empty_db qs) = None.
Proof.
  assert (ids_below (run empty_db qs)) as Hrun.
  { unfold run. generalize ids_below_empty_db. generalize empty_db.
    induction qs as [|[E r] qs IH]; intros d Hd; [done|].
    cbn. apply IH. by apply ids_below_handle. }
  split; [done|]. destruct Hrun as [Hm Ho]. split.
  - destruct (menu_item _ !! _) as [item|] eqn:Hrow; [|done].
    apply Hm in Hrow. cbn in Hrow. lia.
  - destruct (food_order _ !! _) as [order|] eqn:Hrow; [|done].
    apply Ho in Hrow. cbn in Hrow. lia.
Qed.

(** X5.  Whatever the request and the commit outcome, the database is
    changed only by a request answered with 200 or 201: a 400, 404 or 500
    answer, and an exception that leaves the view function, leave every
    table and counter as it was. *)
Theorem database_changes_only_on_success (E : env) (r : request) (d : database) :
  handle d (E, r) = d
  ∨ ∃ body status, (serve (route E r) d).1 = Ok (body, status)
                   ∧ (status = 200 ∨ status = 201).
Proof.
  unfold handle. cbn [fst snd].
  destruct r; cbn [route]; unfold hello_world.
  3: { left. apply (serve_preserves _ (get_menu_items_world E)). }
  all: unfold_handlers; unfold_monad; unfold dict_get; cbn [db session].
  all: branches; cbn; eauto 10.
Qed.

(** X6.  The four menu handlers never let an exception out, and the status
    of their answer is one their [return] statements carry: 201 or 400 for
    add, 200 or 500 for list, 200, 404 or 400 for update and delete. *)
Theorem menu_handlers_answer (E : env) (r : request) (d : database) :
  is_menu_request r = true →
  ∃ body status, (serve (route E r) d).1 = Ok (body, status)
                 ∧ status ∈ menu_statuses r.
Proof.
  destruct r; try discriminate; intros _; cbn [route menu_statuses].
  2: { unfold serve. destruct (query_fault E) as [e|] eqn:HE.
       - rewrite (get_menu_items_fails E _ e HE). do 2 eexists. split; [done|set_solver].
       - rewrite (get_menu_items_run E _ HE). do 2 eexists. split; [done|set_solver]. }
  all: unfold_handlers; unfold_monad; cbn [db session].
  all: branches; cbn; do 2 eexists; (split; [reflexivity|set_solver]).
Qed.

Lemma menu_handlers_answer_witness :
  ∃ body status,
    (serve (route rejecting (DeleteMenuDelete 1)) small_db).1 = Ok (body, status)
    ∧ status ∈ menu_statuses (DeleteMenuDelete 1).
Proof. apply menu_handlers_answer. reflexivity. Defined.

(** X7.  The two resources are independent: a menu request never changes
    the orders table or its counter, and an order request (or GET /) never
    changes the menu table or its counter.  Deleting a dish leaves the
    orders that name it as they are. *)
Theorem tables_independent (E : env) (r : request) (d : database) :
  if is_menu_request r
  then food_order (handle d (E, r)) = food_order d
       ∧ food_order_next (handle d (E, r)) = food_order_next d
  else menu_item (handle d (E, r)) = menu_item d
       ∧ menu_item_next (handle d (E, r)) = menu_item_next d.
Proof.
  unfold handle. cbn [fst snd].
  destruct r; cbn [route is_menu_request]; unfold hello_world.
  3: { by rewrite (serve_preserves _ (get_menu_items_world E)). }
  all: unfold_handlers; unfold_monad; unfold dict_get; cbn [db session].
  all: branches; cbn; done.
Qed.

(** ** Adding rows *)

(** X8.  When every id in use is below the counter, a POST /menu/add that is
    answered with 201 takes an id no row had, keeps every existing row as it
    was, and makes the table one row larger. *)
Theorem add_menu_item_keeps_rows (E : env) (data : dict) (d : database)
    (name description price availability sold_count : value) :
  ids_below d →
  dict_lookup data "name" = Some name →
  dict_lookup data "description" = Some description →
  dict_lookup data "price" = Some price →
  dict_lookup data "availability" = Some availability →
  dict_lookup data "sold_count" = Some sold_count →
  commit_fault E = None →
  ∃ d',
    serve (add_menu_item E data) d
      = (Ok (message_body "Menu item added successfully", 201), d')
    ∧ menu_item d !! menu_item_next d = None
    ∧ (∀ k item, menu_item d !! k = Some item → menu_item d' !! k = Some item)
    ∧ size (menu_item d') = S (size (menu_item d))
    ∧ menu_item_next d' = menu_item_next d + 1.
Proof.
  intros [Hm _] Hn Hd Hp Ha Hs HE.
  assert (menu_item d !! menu_item_next d = None) as Hfree.
  { destruct (menu_item d !! menu_item_next d) as [item|] eqn:Hrow; [|done].
    apply Hm in Hrow. cbn in Hrow. lia. }
  eexists (mkDatabase _ _ _ _). split; [by exec|]. cbn.
  split; [done|]. split; [|split; [by apply map_size_insert_None|done]].
  intros k item Hrow. rewrite lookup_insert_ne; [done|]. congruence.
Qed.

Lemma ids_below_small_db : ids_below small_db.
Proof. split; apply map_Forall_singleton; reflexivity. Qed.

Lemma add_menu_item_keeps_rows_witness :
  ∃ d',
    serve (add_menu_item accepting dosa_payload) small_db
      = (Ok (message_body "Menu item added successfully", 201), d')
    ∧ menu_item small_db !! menu_item_next small_db = None
    ∧ (∀ k item, menu_item small_db !! k = Some item → menu_item d' !! k = Some item)
    ∧ size (menu_item d') = S (size (menu_item small_db))
    ∧ menu_item_next d' = menu_item_next small_db + 1.
Proof.
  apply (add_menu_item_keeps_rows _ _ _ (PStr "Dosa") (PStr "Crisp rice crepe")
           (PInt 60) (PBool true) (PInt 0));
    [exact ids_below_small_db | reflexivity ..].
Defined.

(** X9.  POST /orders is not idempotent: the same accepted request sent
    twice stores two rows with the same columns under two consecutive
    ids. *)
Theorem create_order_twice (E1 E2 : env) (data : dict) (d : database)
    (name price : value) (ids : list string) :
  dict_lookup data "customer_name" = Some name →
  dict_lookup data "dish_ids" = Some (PList (PStr <$> ids)) →
  dict_lookup data "total_price" = Some price →
  truthy name = true →
  commit_fault E1 = None →
  commit_fault E2 = None →
  ∃ d1 d2 order,
    serve (create_order E1 data) d = (Ok (message_body "Order created successfully", 201), d1)
    ∧ serve (create_order E2 data) d1
      = (Ok (message_body "Order created successfully", 201), d2)
    ∧ food_order d2 !! food_order_next d = Some order
    ∧ food_order d2 !! (food_order_next d + 1) = Some order
    ∧ food_order_next d2 = food_order_next d + 2.
Proof.
  intros Hn Hi Hp Hname HE1 HE2.
  eexists (mkDatabase _ _ _ _), (mkDatabase _ _ _ _), _.
  split; [|split].
  - exec. by rewrite py_join_strs, Hname.
  - exec. by rewrite py_join_strs, Hname.
  - cbn. split; [|split; [apply lookup_insert_eq|lia]].
    rewrite lookup_insert_ne; [apply lookup_insert_eq|lia].
Qed.

Lemma create_order_twice_witness :
  ∃ d1 d2 order,
    serve (create_order accepting ann_payload) small_db
      = (Ok (message_body "Order created successfully", 201), d1)
    ∧ serve (create_order accepting ann_payload) d1
      = (Ok (message_body "Order created successfully", 201), d2)
    ∧ food_order d2 !! food_order_next small_db = Some order
    ∧ food_order d2 !! (food_order_next small_db + 1) = Some order
    ∧ food_order_next d2 = food_order_next small_db + 2.
Proof.
  apply (create_order_twice _ _ _ _ (PStr "Ann") (PInt 120) ["1"; "2"]); reflexivity.
Defined.

(** ** Listing *)

(** Rows with different ids serialise differently, whatever the
    serialisation, as long as it starts with the id. *)
Lemma serialised_NoDup {A} (f : Z * A → value) (l : list (Z * A)) :
  (∀ x, dict_id (f x) = Some x.1) → NoDup l.*1 → NoDup (f <$> l).
Proof.
  intros Hf Hl. apply (NoDup_fmap_1 dict_id).
  rewrite <- list_fmap_compose.
  replace (dict_id ∘ f <$> l) with (Some <$> l.*1).
  - by apply (NoDup_fmap_2 Some).
  - rewrite <- list_fmap_compose. apply list_fmap_ext. intros i x _. cbn. by rewrite Hf.
Qed.

(** X10.  GET /menu leaves the database as it is and has two answers.  When
    the query succeeds it is 200 with a list, empty for an empty table and
    never a message object, that holds exactly one object per row, with the
    row's id and its five columns.  When the query raises it is 500 with the
    exception's text as the error field. *)
Theorem get_menu_items_lists_rows (E : env) (d : database) :
  (query_fault E = None →
   ∃ items,
     serve (get_menu_items E) d = (Ok (PList items, 200), d)
     ∧ NoDup items
     ∧ length items = size (menu_item d)
     ∧ ∀ obj, obj ∈ items ↔
         ∃ id item, menu_item d !! id = Some item
                    ∧ obj = PDict [("id", PInt id);
                                   ("name", MenuItem.name item);
                                   ("description", MenuItem.description item);
                                   ("price", MenuItem.price item);
                                   ("availability", MenuItem.availability item);
                                   ("sold_count", MenuItem.sold_count item)])
  ∧ (∀ e, query_fault E = Some e →
          serve (get_menu_items E) d = (Ok (error_body (str e), 500), d)).
Proof.
  split.
  - intros HE. exists (menu_item_dict <$> map_to_list (menu_item d)).
    split; [unfold serve; by rewrite get_menu_items_run|].
    split; [apply serialised_NoDup; [done|apply NoDup_fst_map_to_list]|].
    split; [by rewrite length_fmap, length_map_to_list|].
    intros obj. rewrite list_elem_of_fmap. split.
    + intros ([id item] & -> & Hin). apply elem_of_map_to_list in Hin. by exists id, item.
    + intros (id & item & Hrow & ->). exists (id, item).
      split; [done|]. by apply elem_of_map_to_list.
  - intros e HE. unfold serve. by rewrite (get_menu_items_fails E _ e HE).
Qed.

Lemma get_menu_items_lists_rows_witness :
  (∃ items,
     serve (get_menu_items accepting) small_db = (Ok (PList items, 200), small_db)
     ∧ NoDup items
     ∧ length items = size (menu_item small_db)
     ∧ ∀ obj, obj ∈ items ↔
         ∃ id item, menu_item small_db !! id = Some item
                    ∧ obj = PDict [("id", PInt id);
                                   ("name", MenuItem.name item);
                                   ("description", MenuItem.description item);
                                   ("price", MenuItem.price item);
                                   ("availability", MenuItem.availability item);
                                   ("sold_count", MenuItem.sold_count item)])
  ∧ serve (get_menu_items unreachable) small_db
    = (Ok (error_body "Can't connect to MySQL server", 500), small_db).
Proof.
  split.
  - apply (proj1 (get_menu_items_lists_rows accepting small_db)). reflexivity.
  - apply (proj2 (get_menu_items_lists_rows unreachable small_db)
             (DatabaseError "Can't connect to MySQL server")).
    reflexivity.
Defined.

(** X11.  GET /orders/status/<status>: when no order row has exactly that
    [order_status], the answer is 200 with a message; otherwise it is 200
    with one object per matching row and nothing else, each made of [id],
    [customer_name] and [order_status]. *)
Theorem get_orders_by_status_spec (order_status : string) (d : database) :
  let matching := λ id o, food_order d !! id = Some o
                          ∧ FoodOrder.order_status o = PStr order_status in
  ((∀ id o, ¬ matching id o) →
     serve (get_orders_by_status (Some order_status)) d
     = (Ok (PDict [("message", PStr "No orders found with this status")], 200), d))
  ∧ ((∃ id o, matching id o) →
     ∃ objs, serve (get_orders_by_status (Some order_status)) d
               = (Ok (PDict [("orders", PList objs)], 200), d)
             ∧ NoDup objs
             ∧ ∀ obj, obj ∈ objs ↔
                 ∃ id o, matching id o
                         ∧ obj = PDict [("id", PInt id);
                                        ("customer_name", FoodOrder.customer_name o);
                                        ("order_status", PStr order_status)]).
Proof.
  intros matching.
  pose proof (filter_by_elem FoodOrder.order_status order_status d) as Helem.
  pose proof (filter_by_NoDup_fst FoodOrder.order_status order_status d) as Hnodup.
  unfold get_orders_by_status. unfold_monad. cbn [db session].
  destruct (List.filter _ _) as [|x l] eqn:Hsel; split.
  - done.
  - intros (id & o & Hm). apply Helem in Hm. by apply elem_of_nil in Hm.
  - intros Hnone. destruct x as [id o]. destruct (Hnone id o). apply Helem. by left.
  - intros _. eexists. split; [reflexivity|].
    split; [by apply serialised_NoDup|].
    intros obj. rewrite list_elem_of_fmap. split.
    + intros ([id o] & -> & Hin). exists id, o. pose proof Hin as Hm.
      apply Helem in Hm. split; [done|]. unfold order_dict. cbn.
      destruct Hm as [_ Hst]. by rewrite Hst.
    + intros (id & o & Hm & ->). exists (id, o). split; [|by apply Helem].
      unfold order_dict. cbn. destruct Hm as [_ Hst]. by rewrite Hst.
Qed.

Lemma get_orders_by_status_spec_witness :
  serve (get_orders_by_status (Some "delivered")) small_db
    = (Ok (PDict [("message", PStr "No orders found with this status")], 200), small_db)
  ∧ ∃ objs, serve (get_orders_by_status (Some "received")) small_db
              = (Ok (PDict [("orders", PList objs)], 200), small_db)
            ∧ NoDup objs
            ∧ ∀ obj, obj ∈ objs ↔
                ∃ id o, (food_order small_db !! id = Some o
                         ∧ FoodOrder.order_status o = PStr "received")
                        ∧ obj = PDict [("id", PInt id);
                                       ("customer_name", FoodOrder.customer_name o);
                                       ("order_status", PStr "received")].
Proof.
  split.
  - apply (get_orders_by_status_spec "delivered" small_db).
    intros id o [Hrow Hst].
    unfold small_db in Hrow. cbn [food_order] in Hrow.
    apply lookup_singleton_Some in Hrow as [_ <-]. discriminate.
  - apply (get_orders_by_status_spec "received" small_db).
    exists 1, ann_order. split; reflexivity.
Defined.

(** ** Orders as the query endpoints show them *)

(** What GET /orders/status/<s> lists: the rows whose status is [s]. *)
Lemma listed_by_status (s : string) (d : database) (obj : value) :
  obj ∈ listed_orders (serve (get_orders_by_status (Some s)) d).1
  ↔ ∃ id o, food_order d !! id = Some o
            ∧ FoodOrder.order_status o = PStr s
            ∧ obj = order_dict (id, o).
Proof.
  pose proof (filter_by_elem FoodOrder.order_status s d) as Helem.
  unfold get_orders_by_status. unfold_monad. cbn [db session].
  destruct (List.filter _ _) as [|x l] eqn:Hsel; cbn.
  - split; [by intros ?%elem_of_nil|].
    intros (id & o & Hrow & Hst & _).
    assert ((id, o) ∈ ([] : list (Z * FoodOrder.t))) as Hin by by apply Helem.
    by apply elem_of_nil in Hin.
  - change (order_dict x :: (order_dict <$> l)) with (order_dict <$> x :: l).
    rewrite list_elem_of_fmap. split.
    + intros ([id o] & -> & Hin). apply Helem in Hin as [? ?]. by exists id, o.
    + intros (id & o & Hrow & Hst & ->). exists (id, o). split; [done|]. by apply Helem.
Qed.

(** What GET /orders/customer/<s> lists: the rows of customer [s]. *)
Lemma listed_by_customer (s : string) (d : database) (obj : value) :
  obj ∈ listed_orders (serve (get_orders_by_customer s) d).1
  ↔ ∃ id o, food_order d !! id = Some o
            ∧ FoodOrder.customer_name o = PStr s
            ∧ obj = order_dict (id, o).
Proof.
  pose proof (filter_by_elem FoodOrder.customer_name s d) as Helem.
  unfold get_orders_by_customer. unfold_monad. cbn [db session].
  destruct (List.filter _ _) as [|x l] eqn:Hsel; cbn.
  - split; [by intros ?%elem_of_nil|].
    intros (id & o & Hrow & Hst & _).
    assert ((id, o) ∈ ([] : list (Z * FoodOrder.t))) as Hin by by apply Helem.
    by apply elem_of_nil in Hin.
  - change (order_dict x :: (order_dict <$> l)) with (order_dict <$> x :: l).
    rewrite list_elem_of_fmap. split.
    + intros ([id o] & -> & Hin). apply Helem in Hin as [? ?]. by exists id, o.
    + intros (id & o & Hrow & Hst & ->). exists (id, o). split; [done|]. by apply Helem.
Qed.

(** X12.  An accepted PUT /orders/<id> whose [order_status] is a string is
    visible at once: GET /orders/status/<that string> lists the order, with
    its id, its customer and the new status. *)
Theorem update_order_status_then_query (E : env) (order_id : Z) (data : dict)
    (d : database) (o : FoodOrder.t) (s : string) :
  food_order d !! order_id = Some o →
  dict_lookup data "order_status" = Some (PStr s) →
  commit_fault E = None →
  ∃ d',
    serve (update_order_status E order_id data) d
      = (Ok (message_body "Order status updated successfully", 200), d')
    ∧ PDict [("id", PInt order_id);
             ("customer_name", FoodOrder.customer_name o);
             ("order_status", PStr s)]
      ∈ listed_orders (serve (get_orders_by_status (Some s)) d').1.
Proof.
  intros Hrow Hst HE.
  eexists (mkDatabase _ _ _ _). split.
  - unfold_handlers; unfold_monad; unfold dict_get; cbn [db session].
    by rewrite Hrow, Hst, HE.
  - apply listed_by_status.
    exists order_id, (FoodOrder.set_order_status (PStr s) o).
    split; [apply lookup_insert_eq|done].
Qed.

Lemma update_order_status_then_query_witness :
  ∃ d',
    serve (update_order_status accepting 1 [("order_status", PStr "ready")]) small_db
      = (Ok (message_body "Order status updated successfully", 200), d')
    ∧ PDict [("id", PInt 1);
             ("customer_name", FoodOrder.customer_name ann_order);
             ("order_status", PStr "ready")]
      ∈ listed_orders (serve (get_orders_by_status (Some "ready")) d').1.
Proof. apply update_order_status_then_query; reflexivity. Defined.

(** X14.  An accepted POST /orders whose [customer_name] is a non-empty
    string is visible at once: GET /orders/customer/<name> lists the new
    order under its new id with status "received". *)
Theorem create_order_then_query (E : env) (data : dict) (d : database)
    (s : string) (ids : list string) (price : value) :
  dict_lookup data "customer_name" = Some (PStr s) →
  s ≠ "" →
  dict_lookup data "dish_ids" = Some (PList (PStr <$> ids)) →
  dict_lookup data "total_price" = Some price →
  commit_fault E = None →
  ∃ d',
    serve (create_order E data) d = (Ok (message_body "Order created successfully", 201), d')
    ∧ PDict [("id", PInt (food_order_next d));
             ("customer_name", PStr s);
             ("order_status", PStr "received")]
      ∈ listed_orders (serve (get_orders_by_customer s) d').1.
Proof.
  intros Hn Hs Hi Hp HE.
  assert (truthy (PStr s) = true) as Htruthy.
  { cbn. apply negb_true_iff. by apply String.eqb_neq. }
  eexists (mkDatabase _ _ _ _). split.
  - exec. by rewrite py_join_strs, Htruthy.
  - apply listed_by_customer. eexists _, _.
    split; [apply lookup_insert_eq|done].
Qed.

Lemma create_order_then_query_witness :
  ∃ d',
    serve (create_order accepting ann_payload) small_db
      = (Ok (message_body "Order created successfully", 201), d')
    ∧ PDict [("id", PInt (food_order_next small_db));
             ("customer_name", PStr "Ann");
             ("order_status", PStr "received")]
      ∈ listed_orders (serve (get_orders_by_customer "Ann") d').1.
Proof.
  apply (create_order_then_query _ _ _ "Ann" ["1"; "2"] (PInt 120));
    [reflexivity | discriminate | reflexivity ..].
Defined.

(** ** The checks of [create_order] *)

Lemma str_items_first_other (i : nat) (pre : list string) (v : value) (post : list value) :
  type_name v ≠ "str" →
  str_items i ((PStr <$> pre) ++ v :: post)
  = Raise (TypeError ("sequence item " ++ pretty (i + length pre)%nat
                        ++ ": expected str instance, " ++ type_name v ++ " found")).
Proof.
  intros Hv. revert i. induction pre as [|s pre IH]; intros i; cbn.
  - rewrite Nat.add_0_r. by destruct v.
  - rewrite IH. by rewrite Nat.add_succ_r.
Qed.

(** X15.  POST /orders with a [dish_ids] list that holds anything but
    strings (numbers, say) is not answered by the handler: the join raises
    [TypeError] for the first such item, outside any [try], and the
    database is unchanged. *)
Theorem create_order_non_string_dish_id (E : env) (data : dict) (d : database)
    (pre : list string) (v : value) (post : list value) :
  dict_lookup data "dish_ids" = Some (PList ((PStr <$> pre) ++ v :: post)) →
  type_name v ≠ "str" →
  serve (create_order E data) d
  = (Raise (TypeError ("sequence item " ++ pretty (length pre)
                         ++ ": expected str instance, " ++ type_name v ++ " found")), d).
Proof.
  intros Hids Hv. exec. unfold py_join.
  by rewrite (str_items_first_other 0 pre v post Hv).
Qed.

Lemma create_order_non_string_dish_id_witness :
  serve (create_order accepting
           [("customer_name", PStr "Ann"); ("dish_ids", PList [PStr "1"; PInt 2]);
            ("total_price", PInt 120)]) small_db
  = (Raise (TypeError "sequence item 1: expected str instance, int found"), small_db).
Proof.
  apply (create_order_non_string_dish_id _ _ _ ["1"] (PInt 2) []);
    [reflexivity | discriminate].
Defined.

(** X16.  Once the three keys are there and [dish_ids] can be joined, the
    400 of POST /orders depends on [customer_name] alone: the answer is 400
    exactly when [customer_name] is falsy (null, false, 0, an empty string,
    list or object).  The [dish_ids] half of the check never fires, so an
    empty list of dishes is accepted. *)
Theorem create_order_guard (E : env) (data : dict) (d : database)
    (name ids price : value) (joined : string) :
  dict_lookup data "customer_name" = Some name →
  dict_lookup data "dish_ids" = Some ids →
  py_join "," ids = Ok joined →
  dict_lookup data "total_price" = Some price →
  http_status (serve (create_order E data) d).1 = 400 ↔ truthy name = false.
Proof.
  intros Hn Hi Hj Hp. exec. rewrite Hj. cbn.
  destruct (truthy name); cbn.
  - destruct (commit_fault E); cbn; split; discriminate.
  - done.
Qed.

Lemma create_order_guard_witness :
  (http_status (serve (create_order accepting
                         [("customer_name", PInt 0); ("dish_ids", PList [PStr "1"]);
                          ("total_price", PInt 60)]) small_db).1 = 400
   ↔ truthy (PInt 0) = false)
  ∧ (http_status (serve (create_order accepting
                           [("customer_name", PStr "Ann"); ("dish_ids", PList []);
                            ("total_price", PInt 0)]) small_db).1 = 400
     ↔ truthy (PStr "Ann") = false).
Proof.
  split.
  - apply (create_order_guard _ _ _ _ (PList [PStr "1"]) (PInt 60) "1"); reflexivity.
  - apply (create_order_guard _ _ _ _ (PList []) (PInt 0) ""); reflexivity.
Defined.

(** ** Deleting *)

(** X17.  Adding a menu item and then deleting the id it was given brings
    both tables back to what they were; only the menu counter has moved, so
    the id is not handed out again. *)
Theorem add_then_delete (E1 E2 : env) (data : dict) (d : database)
    (name description price availability sold_count : value) :
  ids_below d →
  dict_lookup data "name" = Some name →
  dict_lookup data "description" = Some description →
  dict_lookup data "price" = Some price →
  dict_lookup data "availability" = Some availability →
  dict_lookup data "sold_count" = Some sold_count →
  commit_fault E1 = None →
  commit_fault E2 = None →
  ∃ d1,
    serve (add_menu_item E1 data) d
      = (Ok (message_body "Menu item added successfully", 201), d1)
    ∧ serve (delete_menu_item E2 (menu_item_next d)) d1
      = (Ok (message_body "Menu item deleted successfully", 200),
         mkDatabase (menu_item d) (food_order d) (menu_item_next d + 1) (food_order_next d)).
Proof.
  intros [Hm _] Hn Hd Hp Ha Hs HE1 HE2.
  assert (menu_item d !! menu_item_next d = None) as Hfree.
  { destruct (menu_item d !! menu_item_next d) as [item|] eqn:Hrow; [|done].
    apply Hm in Hrow. cbn in Hrow. lia. }
  eexists (mkDatabase _ _ _ _). split; [by exec|].
  unfold_handlers; unfold_monad; cbn [db session menu_item].
  rewrite lookup_insert_eq, HE2. cbn. by rewrite delete_insert_id.
Qed.

Lemma add_then_delete_witness :
  ∃ d1,
    serve (add_menu_item accepting dosa_payload) small_db
      = (Ok (message_body "Menu item added successfully", 201), d1)
    ∧ serve (delete_menu_item accepting (menu_item_next small_db)) d1
      = (Ok (message_body "Menu item deleted successfully", 200),
         mkDatabase (menu_item small_db) (food_order small_db)
                    (menu_item_next small_db + 1) (food_order_next small_db)).
Proof.
  apply (add_then_delete _ _ _ _ (PStr "Dosa") (PStr "Crisp rice crepe")
           (PInt 60) (PBool true) (PInt 0));
    [exact ids_below_small_db | reflexivity ..].
Defined.

(** X18.  After an accepted DELETE /menu/delete/<k>, a GET /menu whose query
    succeeds lists no object with id [k] and still lists every other
    row. *)
Theorem delete_then_list (E E' : env) (k : Z) (old : MenuItem.t) (d : database) :
  menu_item d !! k = Some old →
  commit_fault E = None →
  query_fault E' = None →
  ∃ d1 items,
    serve (delete_menu_item E k) d
      = (Ok (message_body "Menu item deleted successfully", 200), d1)
    ∧ serve (get_menu_items E') d1 = (Ok (PList items, 200), d1)
    ∧ (∀ obj, obj ∈ items → dict_id obj ≠ Some k)
    ∧ (∀ id item, id ≠ k → menu_item d !! id = Some item →
                  menu_item_dict (id, item) ∈ items).
Proof.
  intros Hrow HE HE'.
  eexists (mkDatabase _ _ _ _), _. split; [by exec|].
  split; [unfold serve; by rewrite get_menu_items_run|]. cbn [db menu_item]. split.
  - intros obj ([id item] & -> & Hin%elem_of_map_to_list)%list_elem_of_fmap.
    cbn. intros [= ->]. by rewrite lookup_delete_eq in Hin.
  - intros id item Hne Hid. apply list_elem_of_fmap. exists (id, item).
    split; [done|]. apply elem_of_map_to_list. by rewrite lookup_delete_ne.
Qed.

Lemma delete_then_list_witness :
  ∃ d1 items,
    serve (delete_menu_item accepting 1) small_db
      = (Ok (message_body "Menu item deleted successfully", 200), d1)
    ∧ serve (get_menu_items accepting) d1 = (Ok (PList items, 200), d1)
    ∧ (∀ obj, obj ∈ items → dict_id obj ≠ Some 1)
    ∧ (∀ id item, id ≠ 1 → menu_item small_db !! id = Some item →
                  menu_item_dict (id, item) ∈ items).
Proof. apply (delete_then_list _ _ _ dosa); reflexivity. Defined.

(** ** Across sequences of requests *)

Lemma menu_id_free_handle (E : env) (r : request) (d : database) (k : Z) :
  k < menu_item_next d → menu_item d !! k = None →
  k < menu_item_next (handle d (E, r)) ∧ menu_item (handle d (E, r)) !! k = None.
Proof.
  intros Hk Hfree.
  destruct (handle_effect E r d)
    as [->|[(item & ->)|[(id & item & [old Hold] & ->)|[(id & ->)|[(o & ->)|
        (id & o & [old Hold] & ->)]]]]]; cbn; try done.
  - split; [lia|]. rewrite lookup_insert_ne; [done|lia].
  - split; [done|]. rewrite lookup_insert_ne; [done|congruence].
  - split; [done|]. apply lookup_delete_None. by right.
Qed.

(** X19.  A menu id that is below the counter and has no row (a deleted
    item, say) never gets a row again, whatever requests follow: PUT does
    not create rows and POST takes its ids from the counter. *)
Theorem menu_id_never_reused (qs : list (env * request)) (d : database) (k : Z) :
  k < menu_item_next d →
  menu_item d !! k = None →
  menu_item (run d qs) !! k = None.
Proof.
  unfold run. revert d. induction qs as [|[E r] qs IH]; intros d Hk Hfree; [done|].
  cbn. destruct (menu_id_free_handle E r d k Hk Hfree). by apply IH.
Qed.

Lemma menu_id_never_reused_witness :
  let d1 := handle small_db (accepting, DeleteMenuDelete 1) in
  menu_item d1 !! 1 = None
  ∧ menu_item (run d1 [(accepting, PutMenuUpdate 1 dosa_payload);
                       (accepting, PostMenuAdd dosa_payload)]) !! 1 = None.
Proof.
  split; [reflexivity|].
  apply menu_id_never_reused; reflexivity.
Defined.

Lemma set_order_status_same (o : FoodOrder.t) :
  FoodOrder.set_order_status (FoodOrder.order_status o) o = o.
Proof. by destruct o. Qed.

Lemma order_kept_handle (E : env) (r : request) (d : database) (k : Z) (o : FoodOrder.t) :
  ids_below d → food_order d !! k = Some o →
  ∃ st, food_order (handle d (E, r)) !! k = Some (FoodOrder.set_order_status st o).
Proof.
  intros [_ Ho] Hrow.
  assert (k ≠ food_order_next d) as Hne.
  { intros ->. apply Ho in Hrow. cbn in Hrow. lia. }
  set (kept := λ m : gmap Z FoodOrder.t,
         ∃ st, m !! k = Some (FoodOrder.set_order_status st o)).
  change (kept (food_order (handle d (E, r)))).
  assert (kept (food_order d)) as Hsame.
  { exists (FoodOrder.order_status o). by rewrite set_order_status_same. }
  assert (∀ o', kept (<[food_order_next d := o']> (food_order d))) as Hnew.
  { intros o'. exists (FoodOrder.order_status o).
    by rewrite lookup_insert_ne, set_order_status_same. }
  assert (∀ id old st, food_order d !! id = Some old →
            kept (<[id := FoodOrder.set_order_status st old]> (food_order d))) as Hput.
  { intros id old st Hold. destruct (decide (id = k)) as [->|Hk].
    - exists st. rewrite lookup_insert_eq. do 2 f_equal. congruence.
    - exists (FoodOrder.order_status o).
      by rewrite lookup_insert_ne, set_order_status_same. }
  clearbody kept. clear Hrow.
  unfold handle. cbn [fst snd].
  destruct r; cbn [route]; unfold hello_world.
  3: { by rewrite (serve_preserves _ (get_menu_items_world E)). }
  all: unfold_handlers; unfold_monad; unfold dict_get; cbn [db session].
  all: branches; cbn; eauto.
Qed.

(** X20.  No request removes an order or touches its [customer_name],
    [dish_ids] or [total_price]: after any sequence of requests a stored
    order is still there under its id, with at most its [order_status]
    changed. *)
Theorem order_never_removed (qs : list (env * request)) (d : database) (k : Z)
    (o : FoodOrder.t) :
  ids_below d →
  food_order d !! k = Some o →
  ∃ st, food_order (run d qs) !! k
        = Some (FoodOrder.mk (FoodOrder.customer_name o) (FoodOrder.dish_ids o)
                  (FoodOrder.total_price o) st).
Proof.
  unfold run. revert d o. induction qs as [|[E r] qs IH]; intros d o Hd Hrow.
  - exists (FoodOrder.order_status o). cbn. by destruct o.
  - cbn. destruct (order_kept_handle E r d k o Hd Hrow) as [st Hst].
    destruct (IH _ _ (ids_below_handle E r d Hd) Hst) as [st' Hst'].
    exists st'. exact Hst'.
Qed.

Lemma order_never_removed_witness :
  ∃ st, food_order (run small_db [(accepting, PostOrders ann_payload);
                                  (accepting, PutOrders 1 [("order_status", PStr "ready")]);
                                  (accepting, DeleteMenuDelete 1)]) !! 1
        = Some (FoodOrder.mk (FoodOrder.customer_name ann_order) (FoodOrder.dish_ids ann_order)
                  (FoodOrder.total_price ann_order) st).
Proof. apply order_never_removed; [exact ids_below_small_db | reflexivity]. Defined.

(** ** Repeating a PUT *)

(** X21.  PUT /orders/<id> is idempotent: after one accepted update, the same
    request again is answered with 200 and leaves the database as the first
    one left it. *)
Theorem update_order_status_idempotent (E1 E2 : env) (order_id : Z) (data : dict)
    (d : database) (o : FoodOrder.t) :
  food_order d !! order_id = Some o →
  commit_fault E1 = None →
  commit_fault E2 = None →
  ∃ d1,
    serve (update_order_status E1 order_id data) d
      = (Ok (message_body "Order status updated successfully", 200), d1)
    ∧ serve (update_order_status E2 order_id data) d1
      = (Ok (message_body "Order status updated successfully", 200), d1).
Proof.
  intros Hrow HE1 HE2.
  eexists (mkDatabase _ _ _ _). split; [by exec|].
  unfold_handlers; unfold_monad; cbn [db session food_order].
  rewrite lookup_insert_eq, HE2. cbn. by rewrite insert_insert_eq.
Qed.

Lemma update_order_status_idempotent_witness :
  ∃ d1,
    serve (update_order_status accepting 1 [("order_status", PStr "ready")]) small_db
      = (Ok (message_body "Order status updated successfully", 200), d1)
    ∧ serve (update_order_status accepting 1 [("order_status", PStr "ready")]) d1
      = (Ok (message_body "Order status updated successfully", 200), d1).
Proof. apply (update_order_status_idempotent _ _ _ _ _ ann_order); reflexivity. Defined.

(** X22.  PUT /menu/update/<id> is idempotent: after one accepted update
    with all five keys, the same request again is answered with 200 and
    leaves the database as the first one left it. *)
Theorem update_menu_item_idempotent (E1 E2 : env) (item_id : Z) (data : dict)
    (d : database) (old : MenuItem.t)
    (name description price availability sold_count : value) :
  dict_lookup data "name" = Some name →
  dict_lookup data "description" = Some description →
  dict_lookup data "price" = Some price →
  dict_lookup data "availability" = Some availability →
  dict_lookup data "sold_count" = Some sold_count →
  menu_item d !! item_id = Some old →
  commit_fault E1 = None →
  commit_fault E2 = None →
  ∃ d1,
    serve (update_menu_item E1 item_id data) d
      = (Ok (message_body "Menu item updated successfully", 200), d1)
    ∧ serve (update_menu_item E2 item_id data) d1
      = (Ok (message_body "Menu item updated successfully", 200), d1).
Proof.
  intros Hn Hd Hp Ha Hs Hrow HE1 HE2.
  eexists (mkDatabase _ _ _ _). split; [by exec|].
  unfold_handlers; unfold_monad; cbn [db session menu_item].
  rewrite Hn, Hd, Hp, Ha, Hs. cbn [db session menu_item].
  rewrite lookup_insert_eq, HE2. cbn. by rewrite insert_insert_eq.
Qed.

Lemma update_menu_item_idempotent_witness :
  ∃ d1,
    serve (update_menu_item accepting 1 dosa_payload) small_db
      = (Ok (message_body "Menu item updated successfully", 200), d1)
    ∧ serve (update_menu_item accepting 1 dosa_payload) d1
      = (Ok (message_body "Menu item updated successfully", 200), d1).
Proof.
  apply (update_menu_item_idempotent _ _ _ _ _ dosa (PStr "Dosa") (PStr "Crisp rice crepe")
           (PInt 60) (PBool true) (PInt 0)); reflexivity.
Defined.
